(** * wyscoutapi: a shallow embedding of [src/wyscoutapi/__init__.py]

    The module is a thin client of the Wyscout REST API.  Its logic lives in
    [WyscoutAPILoader] (constructor, [_url], [_parse_response],
    [get_route_json]) and in the facade [APIClient], whose methods delegate
    to [get_route_json].

    Conventions of the embedding:
    - a Python [str] is a Rocq [string] holding its UTF-8 bytes, so that
      [str.encode()] and [bytes.decode()] are the conversions between
      [string] and [list byte];
    - a Python [int] is a [Z], a [float] is an IEEE value ([spec_float]);
    - a [dict] with string keys ([**params], a decoded JSON object) is an
      association list in insertion order;
    - a call that may raise returns a [result];
    - the collaborators the module imports ([requests], [ratelimiter],
      [json.dumps]) are the fields of the class [Collaborators]: every
      theorem holds for all of them. *)

From Stdlib Require Import ZArith NArith List String Ascii Bool Lia.
From Stdlib Require Import Strings.Byte.
From Stdlib Require Import DecimalString.
From Stdlib Require Import Floats.SpecFloat.
Import ListNotations.

Set Warnings "-register-all".

Local Open Scope string_scope.
Local Open Scope list_scope.
Local Open Scope Z_scope.

(* ------------------------------------------------------------------ *)
(** ** Python values *)

(** The values that reach the module: keyword arguments of the facade
    and decoded JSON bodies ([json.loads] yields exactly these shapes). *)
Inductive pyval : Type :=
| PNone
| PBool (b : bool)
| PInt (n : Z)
| PFloat (f : spec_float)
| PStr (s : string)
| PList (items : list pyval)
| PDict (items : list (string * pyval)).

(** A [dict] with [str] keys. *)
Definition dict (V : Type) : Type := list (string * V).

(** [d.get(k)] as an option: the first binding of [k]. *)
Fixpoint dict_lookup {V : Type} (k : string) (d : dict V) : option V :=
  match d with
  | [] => None
  | (k', v) :: rest => if String.eqb k k' then Some v else dict_lookup k rest
  end.

(** [d[k] = v]: an existing key keeps its position, a new key is appended. *)
Fixpoint dict_set {V : Type} (k : string) (v : V) (d : dict V) : dict V :=
  match d with
  | [] => [(k, v)]
  | (k', v') :: rest =>
      if String.eqb k k' then (k', v) :: rest else (k', v') :: dict_set k v rest
  end.

Definition dict_keys {V : Type} (d : dict V) : list string := map fst d.

(** The mathematical value of a float is the integer [n]
    (how [float.__eq__] compares with an [int]: exactly). *)
Definition float_eq_int (f : spec_float) (n : Z) : bool :=
  match f with
  | S754_zero _ => n =? 0
  | S754_infinity _ => false
  | S754_nan => false
  | S754_finite s m e =>
      let mag := if s then - n else n in
      if 0 <=? e then Z.pos m * 2 ^ e =? mag
      else Z.pos m =? mag * 2 ^ (- e)
  end.

(** [bool(v)]: Python truthiness. *)
Definition truthy (v : pyval) : bool :=
  match v with
  | PNone => false
  | PBool b => b
  | PInt n => negb (n =? 0)
  | PFloat f => negb (float_eq_int f 0)
  | PStr s => negb (String.eqb s "")
  | PList items => match items with [] => false | _ => true end
  | PDict items => match items with [] => false | _ => true end
  end.

(** [isinstance(v, bool)] and [isinstance(v, str)]. *)
Definition isinstance_bool (v : pyval) : bool :=
  match v with PBool _ => true | _ => false end.

Definition isinstance_str (v : pyval) : bool :=
  match v with PStr _ => true | _ => false end.

Definition is_None (v : pyval) : bool :=
  match v with PNone => true | _ => false end.

(** [v == n] for an integer literal [n] ([True == 1], [401.0 == 401];
    a [str], [None], [list] or [dict] never equals an [int]). *)
Definition py_eq_int (v : pyval) (n : Z) : bool :=
  match v with
  | PInt m => m =? n
  | PBool b => (if b then 1 else 0) =? n
  | PFloat f => float_eq_int f n
  | _ => false
  end.

(* ------------------------------------------------------------------ *)
(** ** Exceptions and results *)

(** The four classes derived from [WyscoutAPIError] (lines 10-27), each
    carrying the argument it was raised with, and the built-in exceptions
    the module can run into. [OtherError] stands for whatever a
    collaborator raises (a transport failure, a body that is not JSON). *)
Inductive exn : Type :=
| AuthenticationError (arg : pyval)
| BadRequestError (arg : pyval)
| TooManyRequestsError (arg : pyval)
| UnknownError (arg : pyval)
| KeyError (key : string)
| TypeError
| AttributeError
| OtherError (name : string).

(** [isinstance(e, WyscoutAPIError)]. *)
Definition is_WyscoutAPIError (e : exn) : bool :=
  match e with
  | AuthenticationError _ | BadRequestError _
  | TooManyRequestsError _ | UnknownError _ => true
  | _ => false
  end.

Inductive result (A : Type) : Type :=
| Return (a : A)
| Raise (e : exn).

Arguments Return {A} a.
Arguments Raise {A} e.

Definition result_bind {A B : Type} (r : result A) (k : A -> result B) : result B :=
  match r with
  | Return a => k a
  | Raise e => Raise e
  end.

(** [content.get(key, default)]: only a [dict] has the method. *)
Definition py_get (content : pyval) (key : string) (default : pyval) : result pyval :=
  match content with
  | PDict d =>
      match dict_lookup key d with
      | Some v => Return v
      | None => Return default
      end
  | _ => Raise AttributeError
  end.

(** [v[key]] for a [str] key: a [dict] looks the key up, a [list] or a
    [str] refuses a [str] index, the other values are not subscriptable. *)
Definition py_getitem (v : pyval) (key : string) : result pyval :=
  match v with
  | PDict d =>
      match dict_lookup key d with
      | Some x => Return x
      | None => Raise (KeyError key)
      end
  | _ => Raise TypeError
  end.

(* ------------------------------------------------------------------ *)
(** ** [str(r)] of a route segment and [base64.b64encode] *)

(** The facade builds routes from string literals and identifiers. *)
Inductive segment : Type :=
| SegStr (s : string)
| SegInt (n : Z).

(** [str(r)]. *)
Definition py_str (r : segment) : string :=
  match r with
  | SegStr s => s
  | SegInt n => NilZero.string_of_int (Z.to_int n)
  end.

Definition b64_alphabet : list byte :=
  list_byte_of_string
    "ABCDEFGHIJKLMNOPQRSTUVWXYZabcdefghijklmnopqrstuvwxyz0123456789+/".

Definition b64_pad : byte := x3d.

(** Three bytes side by side are one 24-bit group. *)
Definition group24 (a b c : byte) : N :=
  (Byte.to_N a * 65536 + Byte.to_N b * 256 + Byte.to_N c)%N.

(** The [i]-th 6-bit digit of [n], counted from the right, and its
    character in the alphabet. *)
Definition sextet_value (n : N) (i : N) : N := ((n / 64 ^ i) mod 64)%N.

Definition sextet (n : N) (i : N) : byte :=
  nth (N.to_nat (sextet_value n i)) b64_alphabet b64_pad.

(** [base64.b64encode] (RFC 4648): three bytes give four characters, a
    last group of one or two bytes is filled with zero bits and padded
    with [=]. *)
Fixpoint b64encode (bs : list byte) : list byte :=
  match bs with
  | [] => []
  | [a] =>
      let n := group24 a x00 x00 in
      [sextet n 3; sextet n 2; b64_pad; b64_pad]
  | [a; b] =>
      let n := group24 a b x00 in
      [sextet n 3; sextet n 2; sextet n 1; b64_pad]
  | a :: b :: c :: rest =>
      let n := group24 a b c in
      sextet n 3 :: sextet n 2 :: sextet n 1 :: sextet n 0 :: b64encode rest
  end.

(** [base64.b64decode], the way back: used to state what can be read
    off the [Authorization] header. *)
Fixpoint index_from (c : byte) (l : list byte) (i : N) : option N :=
  match l with
  | [] => None
  | x :: rest => if Byte.eqb c x then Some i else index_from c rest (i + 1)%N
  end.

Definition b64_index (c : byte) : option N := index_from c b64_alphabet 0%N.

Definition ungroup24 (c3 c2 c1 c0 : byte) : option N :=
  match b64_index c3, b64_index c2, b64_index c1, b64_index c0 with
  | Some i3, Some i2, Some i1, Some i0 =>
      Some (i3 * 262144 + i2 * 4096 + i1 * 64 + i0)%N
  | _, _, _, _ => None
  end.

Definition byte_at (n : N) (i : N) : option byte :=
  Byte.of_N ((n / 256 ^ i) mod 256)%N.

(** The first [count] bytes of the group [n]. *)
Definition group_bytes (count : nat) (n : N) : option (list byte) :=
  match byte_at n 2, byte_at n 1, byte_at n 0 with
  | Some a, Some b, Some c => Some (firstn count [a; b; c])
  | _, _, _ => None
  end.

Definition option_bind {A B : Type} (o : option A) (k : A -> option B) : option B :=
  match o with
  | Some a => k a
  | None => None
  end.

(** The character of the digit zero, which stands in for a padding. *)
Definition b64_zero : byte := x41.

Fixpoint b64decode (cs : list byte) : option (list byte) :=
  match cs with
  | [] => Some []
  | c3 :: c2 :: c1 :: c0 :: rest =>
      match rest with
      | [] =>
          if Byte.eqb c0 b64_pad then
            if Byte.eqb c1 b64_pad
            then option_bind (ungroup24 c3 c2 b64_zero b64_zero) (group_bytes 1)
            else option_bind (ungroup24 c3 c2 c1 b64_zero) (group_bytes 2)
          else option_bind (ungroup24 c3 c2 c1 c0) (group_bytes 3)
      | _ :: _ =>
          option_bind (option_bind (ungroup24 c3 c2 c1 c0) (group_bytes 3)) (fun bs =>
          option_bind (b64decode rest) (fun tail => Some (bs ++ tail)))
      end
  | _ => None
  end.

(** [s.encode()] and [b.decode()]. *)
Definition str_encode (s : string) : list byte := list_byte_of_string s.
Definition bytes_decode (b : list byte) : string := string_of_list_byte b.

(* ------------------------------------------------------------------ *)
(** ** Collaborators *)

(** What [requests.get] returns: the module only calls [response.json()],
    which decodes the body or raises. *)
Record Response : Type := { Response_json : result pyval }.

(** The imported packages, consumed as black boxes:
    - [limiter] is the type of [ratelimiter.RateLimiter] objects and
      [RateLimiter max_calls period] its constructor;
    - [json_dumps] is [json.dumps];
    - [requests_get url headers params] is the answer of
      [requests.get(url, headers=headers, params=params)]. *)
Class Collaborators : Type := {
  limiter : Type;
  RateLimiter : Z -> Z -> result limiter;
  json_dumps : pyval -> string;
  requests_get : string -> dict string -> dict pyval -> result Response
}.

(** Modelled from the spec: the query string is built inside the
    [requests] package, which is not part of the repository. Of its
    encoding only this is modelled: an entry whose value is [None] is
    left out of the query string; the other entries stay, in order, with
    the values as they were passed (how a value is rendered is not
    modelled). *)
Definition query_entries (params : dict pyval) : dict pyval :=
  filter (fun kv => negb (is_None (snd kv))) params.

(* ------------------------------------------------------------------ *)
(** ** Effects: the trace of a call *)

(** What a call does to the outside world, in order: entering and leaving
    the rate limiter's [with] block, and the HTTP GET. *)
Inductive event `{Collaborators} : Type :=
| LimiterEnter (rl : limiter)
| HttpGet (url : string) (headers : dict string) (params : dict pyval)
| LimiterExit (rl : limiter).

(** A computation reads the trace so far, extends it and returns or raises. *)
Definition M `{Collaborators} (A : Type) : Type := list event -> result A * list event.

Definition ret `{Collaborators} {A : Type} (a : A) : M A :=
  fun tr => (Return a, tr).

Definition lift `{Collaborators} {A : Type} (r : result A) : M A :=
  fun tr => (r, tr).

Definition bind `{Collaborators} {A B : Type} (m : M A) (k : A -> M B) : M B :=
  fun tr =>
    match m tr with
    | (Return a, tr') => k a tr'
    | (Raise e, tr') => (Raise e, tr')
    end.

Definition emit `{Collaborators} (ev : event) : M unit :=
  fun tr => (Return tt, tr ++ [ev]).

Notation "x <- m ;; k" := (bind m (fun x => k))
  (at level 61, m at next level, right associativity).
Notation "m ;;; k" := (bind m (fun _ => k))
  (at level 61, right associativity).

(** [with rl: body]: [__exit__] runs whether [body] returns or raises,
    and lets the exception through. *)
Definition with_limiter `{Collaborators} {A : Type} (rl : limiter) (body : M A) : M A :=
  fun tr =>
    let '(r, tr') := body (tr ++ [LimiterEnter rl]) in
    (r, tr' ++ [LimiterExit rl]).

(** [requests.get(url, headers=headers, params=params)]. *)
Definition http_get `{Collaborators} (url : string) (headers : dict string)
    (params : dict pyval) : M Response :=
  emit (HttpGet url headers params) ;;; lift (requests_get url headers params).

(* ------------------------------------------------------------------ *)
(** ** [class WyscoutAPILoader] (lines 32-86) *)

Module WyscoutAPILoader.

(** The attributes [__init__] sets on [self]. *)
Record t `{Collaborators} : Type := {
  username : string;
  version : string;
  rate_limiter : limiter;
  headers : dict string
}.

Definition BASE_URL : string := "https://apirest.wyscout.com".

(** Lines 35-47. *)
Definition __init__ `{Collaborators} (username password version : string)
    (requests_per_sec : Z) : result t :=
  result_bind (RateLimiter requests_per_sec 1) (fun rl =>
  let auth := b64encode (str_encode (username ++ ":" ++ password)%string) in
  Return {| username := username;
            version := version;
            rate_limiter := rl;
            headers := [("Authorization", ("Basic " ++ bytes_decode auth)%string)] |}).

(** Lines 49-54: ['{base}/{version}/{route}'.format(...)] with
    [route='/'.join(str(r) for r in route)]. *)
Definition _url `{Collaborators} (self : t) (route : list segment) : string :=
  (BASE_URL ++ "/" ++ version self ++ "/"
   ++ String.concat "/" (map py_str route))%string.

(** Lines 64-74, the body of [if error:]. *)
Definition raise_for_error (error : pyval) : result pyval :=
  if isinstance_str error then Raise (UnknownError error)
  else
    result_bind (py_getitem error "code") (fun code =>
    if py_eq_int code 401 then
      result_bind (py_getitem error "message") (fun m => Raise (AuthenticationError m))
    else
      result_bind (py_getitem error "code") (fun code =>
      if py_eq_int code 400 then
        result_bind (py_getitem error "message") (fun m => Raise (BadRequestError m))
      else
        result_bind (py_getitem error "code") (fun code =>
        if py_eq_int code 429 then
          result_bind (py_getitem error "message") (fun m => Raise (TooManyRequestsError m))
        else
          result_bind (py_getitem error "message") (fun m => Raise (UnknownError m))))).

(** Lines 56-76. The [try] covers [content.get] only: an
    [AttributeError] there returns the content. *)
Definition _parse_response (response : Response) : result pyval :=
  result_bind (Response_json response) (fun content =>
  match py_get content "error" PNone with
  | Raise AttributeError => Return content
  | Raise e => Raise e
  | Return error =>
      if truthy error then raise_for_error error else Return content
  end).

(** Lines 79-81: the loop over [params.items()]. The test is on the
    key [param], which is a [str]. *)
Definition convert_bools `{Collaborators} (params : dict pyval) : dict pyval :=
  fold_left
    (fun ps kv =>
       let '(param, val) := kv in
       if isinstance_bool (PStr param)
       then dict_set param (PStr (json_dumps val)) ps
       else ps)
    params params.

(** Lines 78-86. *)
Definition get_route_json `{Collaborators} (self : t) (route : list segment)
    (params : dict pyval) : M pyval :=
  let params := convert_bools params in
  r <- with_limiter (rate_limiter self)
         (http_get (_url self route) (headers self) params) ;;
  lift (_parse_response r).

(** The events of one [get_route_json] that sends [params]. *)
Definition call_events `{Collaborators} (self : t) (route : list segment)
    (params : dict pyval) : list event :=
  [LimiterEnter (rate_limiter self);
   HttpGet (_url self route) (headers self) params;
   LimiterExit (rate_limiter self)].

End WyscoutAPILoader.

(* ------------------------------------------------------------------ *)
(** ** [class APIClient] (lines 91-291) and [class WyscoutAPI] (lines 294-305) *)

Module APIClient.

Import WyscoutAPILoader.

Record t `{Collaborators} : Type := { loader : WyscoutAPILoader.t }.

(** Line 101. *)
Definition areas `{Collaborators} (self : t) (details fetch : pyval) : M pyval :=
  get_route_json (loader self) [SegStr "areas"]
    [("details", details); ("fetch", fetch)].

(** Line 120. *)
Definition competition_seasons `{Collaborators} (self : t) (competition_id : segment)
    (active details fetch : pyval) : M pyval :=
  get_route_json (loader self) [SegStr "competitions"; competition_id; SegStr "seasons"]
    [("active", active); ("details", details); ("fetch", fetch)].

(** Line 194: [filters=filters or {}]. *)
Definition season_career `{Collaborators} (self : t) (season_id : segment)
    (filters details fetch : pyval) : M pyval :=
  get_route_json (loader self) [SegStr "seasons"; season_id; SegStr "career"]
    [("filters", if truthy filters then filters else PDict []);
     ("details", details); ("fetch", fetch)].

(** Line 232. *)
Definition team_squad `{Collaborators} (self : t) (team_id : segment)
    (season_id details fetch : pyval) : M pyval :=
  get_route_json (loader self) [SegStr "teams"; team_id; SegStr "squad"]
    [("seasonId", season_id); ("details", details); ("fetch", fetch)].

(** Line 236. *)
Definition team_career `{Collaborators} (self : t) (team_id : segment)
    (season_id details fetch : pyval) : M pyval :=
  get_route_json (loader self) [SegStr "teams"; team_id; SegStr "career"]
    [("details", details); ("fetch", fetch)].

(** Line 275. *)
Definition player_injuries `{Collaborators} (self : t) (player_id : segment) : M pyval :=
  get_route_json (loader self) [SegStr "players"; player_id; SegStr "injuries"] [].

(** Line 281. *)
Definition updated_objects `{Collaborators} (self : t) (timestamp : pyval)
    (object_type : string) : M pyval :=
  content <- get_route_json (loader self) [SegStr "updatedobjects"]
               [("updated_since", timestamp); ("type", PStr object_type)] ;;
  lift (py_getitem content object_type).

(** Line 96: [APIClient(loader)] keeps the loader it is given. *)
Definition __init__ `{Collaborators} (loader : WyscoutAPILoader.t) : t :=
  {| loader := loader |}.

(** The other methods, each one call of [get_route_json]. An identifier
    placed in the route is a [segment], a keyword argument a value. *)

(** Line 106: [coach]. *)
Definition coach `{Collaborators} (self : t)
    (coach_id : segment) (details : pyval) (fetch : pyval) : M pyval :=
  get_route_json (loader self) [SegStr "coaches"; coach_id]
    [("details", details); ("fetch", fetch)].

(** Line 112: [competitions]. *)
Definition competitions `{Collaborators} (self : t)
    (area_id : pyval) (details : pyval) (fetch : pyval) : M pyval :=
  get_route_json (loader self) [SegStr "competitions"]
    [("areaId", area_id); ("details", details); ("fetch", fetch)].

(** Line 116: [competition]. *)
Definition competition `{Collaborators} (self : t)
    (competition_id : segment) (details : pyval) (fetch : pyval) : M pyval :=
  get_route_json (loader self) [SegStr "competitions"; competition_id]
    [("details", details); ("fetch", fetch)].

(** Line 124: [competition_matches]. *)
Definition competition_matches `{Collaborators} (self : t)
    (competition_id : segment) (details : pyval) (fetch : pyval) : M pyval :=
  get_route_json (loader self) [SegStr "competitions"; competition_id; SegStr "matches"]
    [("details", details); ("fetch", fetch)].

(** Line 128: [competition_players]. *)
Definition competition_players `{Collaborators} (self : t)
    (competition_id : segment) (details : pyval) (fetch : pyval) : M pyval :=
  get_route_json (loader self) [SegStr "competitions"; competition_id; SegStr "players"]
    [("details", details); ("fetch", fetch)].

(** Line 132: [competition_teams]. *)
Definition competition_teams `{Collaborators} (self : t)
    (competition_id : segment) (details : pyval) (fetch : pyval) : M pyval :=
  get_route_json (loader self) [SegStr "competitions"; competition_id; SegStr "teams"]
    [("details", details); ("fetch", fetch)].

(** Line 138: [match] ([match] is a keyword of Rocq). *)
Definition match_ `{Collaborators} (self : t)
    (match_id : segment) (use_sides : pyval) (details : pyval) (fetch : pyval) : M pyval :=
  get_route_json (loader self) [SegStr "matches"; match_id]
    [("useSides", use_sides); ("details", details); ("fetch", fetch)].

(** Line 144: [player]. *)
Definition player `{Collaborators} (self : t)
    (player_id : segment) (image_data_url : pyval) (details : pyval) (fetch : pyval) : M pyval :=
  get_route_json (loader self) [SegStr "players"; player_id]
    [("imageDataURL", image_data_url); ("details", details); ("fetch", fetch)].

(** Line 148: [player_career]. *)
Definition player_career `{Collaborators} (self : t)
    (player_id : segment) (details : pyval) (fetch : pyval) : M pyval :=
  get_route_json (loader self) [SegStr "players"; player_id; SegStr "career"]
    [("details", details); ("fetch", fetch)].

(** Line 152: [player_transfer]. *)
Definition player_transfer `{Collaborators} (self : t)
    (player_id : segment) (details : pyval) (fetch : pyval) : M pyval :=
  get_route_json (loader self) [SegStr "players"; player_id; SegStr "transfer"]
    [("details", details); ("fetch", fetch)].

(** Line 156: [player_matches]. *)
Definition player_matches `{Collaborators} (self : t)
    (player_id : segment) (details : pyval) (fetch : pyval) : M pyval :=
  get_route_json (loader self) [SegStr "players"; player_id; SegStr "matches"]
    [("details", details); ("fetch", fetch)].

(** Line 160: [player_fixtures]. *)
Definition player_fixtures `{Collaborators} (self : t)
    (player_id : segment) (details : pyval) (fetch : pyval) : M pyval :=
  get_route_json (loader self) [SegStr "players"; player_id; SegStr "fixtures"]
    [("details", details); ("fetch", fetch)].

(** Line 166: [referee]. *)
Definition referee `{Collaborators} (self : t)
    (referee_id : segment) (details : pyval) (fetch : pyval) : M pyval :=
  get_route_json (loader self) [SegStr "referees"; referee_id]
    [("details", details); ("fetch", fetch)].

(** Line 172: [round]. *)
Definition round `{Collaborators} (self : t)
    (round_id : segment) (details : pyval) (fetch : pyval) : M pyval :=
  get_route_json (loader self) [SegStr "rounds"; round_id]
    [("details", details); ("fetch", fetch)].

(** Line 178: [search]. *)
Definition search `{Collaborators} (self : t)
    (query : pyval) (object_type : pyval) (details : pyval) (fetch : pyval) : M pyval :=
  get_route_json (loader self) [SegStr "search"]
    [("query", query); ("objType", object_type); ("details", details); ("fetch", fetch)].

(** Line 190: [season]. *)
Definition season `{Collaborators} (self : t)
    (season_id : segment) (details : pyval) (fetch : pyval) : M pyval :=
  get_route_json (loader self) [SegStr "seasons"; season_id]
    [("details", details); ("fetch", fetch)].

(** Line 198: [season_matches]. *)
Definition season_matches `{Collaborators} (self : t)
    (season_id : segment) (details : pyval) (fetch : pyval) : M pyval :=
  get_route_json (loader self) [SegStr "seasons"; season_id; SegStr "matches"]
    [("details", details); ("fetch", fetch)].

(** Line 202: [season_fixtures]. *)
Definition season_fixtures `{Collaborators} (self : t)
    (season_id : segment) (details : pyval) (fetch : pyval) : M pyval :=
  get_route_json (loader self) [SegStr "seasons"; season_id; SegStr "fixtures"]
    [("details", details); ("fetch", fetch)].

(** Line 206: [season_players]. *)
Definition season_players `{Collaborators} (self : t)
    (season_id : segment) (details : pyval) (fetch : pyval) : M pyval :=
  get_route_json (loader self) [SegStr "seasons"; season_id; SegStr "players"]
    [("details", details); ("fetch", fetch)].

(** Line 210: [season_teams]. *)
Definition season_teams `{Collaborators} (self : t)
    (season_id : segment) (details : pyval) (fetch : pyval) : M pyval :=
  get_route_json (loader self) [SegStr "seasons"; season_id; SegStr "teams"]
    [("details", details); ("fetch", fetch)].

(** Line 214: [season_standings]. *)
Definition season_standings `{Collaborators} (self : t)
    (season_id : segment) (details : pyval) (fetch : pyval) : M pyval :=
  get_route_json (loader self) [SegStr "seasons"; season_id; SegStr "standings"]
    [("details", details); ("fetch", fetch)].

(** Line 220: [team]. *)
Definition team `{Collaborators} (self : t)
    (team_id : segment) (image_data_url : pyval) (details : pyval) (fetch : pyval) : M pyval :=
  get_route_json (loader self) [SegStr "teams"; team_id]
    [("imageDataURL", image_data_url); ("details", details); ("fetch", fetch)].

(** Line 224: [team_matches]. *)
Definition team_matches `{Collaborators} (self : t)
    (team_id : segment) (details : pyval) (fetch : pyval) : M pyval :=
  get_route_json (loader self) [SegStr "teams"; team_id; SegStr "matches"]
    [("details", details); ("fetch", fetch)].

(** Line 228: [team_fixtures]. *)
Definition team_fixtures `{Collaborators} (self : t)
    (team_id : segment) (details : pyval) (fetch : pyval) : M pyval :=
  get_route_json (loader self) [SegStr "teams"; team_id; SegStr "fixtures"]
    [("details", details); ("fetch", fetch)].

(** Line 242: [player_advancedstats]. *)
Definition player_advancedstats `{Collaborators} (self : t)
    (player_id : segment) (competition_id : pyval) (season_id : pyval) (round_id : pyval) (match_day : pyval) : M pyval :=
  get_route_json (loader self) [SegStr "players"; player_id; SegStr "advancedstats"]
    [("compId", competition_id); ("seasonId", season_id); ("roundId", round_id); ("matchDay", match_day)].

(** Line 255: [team_advancedstats]. *)
Definition team_advancedstats `{Collaborators} (self : t)
    (team_id : segment) (competition_id : pyval) (season_id : pyval) (round_id : pyval) (match_day : pyval) : M pyval :=
  get_route_json (loader self) [SegStr "teams"; team_id; SegStr "advancedstats"]
    [("compId", competition_id); ("seasonId", season_id); ("roundId", round_id); ("matchDay", match_day)].

(** Line 269: [match_events]. *)
Definition match_events `{Collaborators} (self : t)
    (match_id : segment) (details : pyval) (fetch : pyval) : M pyval :=
  get_route_json (loader self) [SegStr "matches"; match_id; SegStr "events"]
    [("details", details); ("fetch", fetch)].

End APIClient.

Module WyscoutAPI.

(** Lines 299-305. *)
Definition __init__ `{Collaborators} (username password version : string)
    (requests_per_sec : Z) : result APIClient.t :=
  result_bind (WyscoutAPILoader.__init__ username password version requests_per_sec)
    (fun l => Return {| APIClient.loader := l |}).

End WyscoutAPI.

(** A computation that does exactly one [get_route_json] of [self]:
    whatever the trace before, it adds the three events of one call. *)
Definition one_get `{Collaborators} (self : WyscoutAPILoader.t) (m : M pyval) : Prop :=
  exists (route : list segment) (params : dict pyval),
    forall tr : list event,
      snd (m tr) = tr ++ WyscoutAPILoader.call_events self route params.

(* ------------------------------------------------------------------ *)
(** ** The URL as the specification words it *)

(** Base host, API version and the route segments, each coerced to a
    string, joined by [/]. *)
Definition BuildURL_spec (version : string) (route : list segment) : string :=
  String.concat "/" (WyscoutAPILoader.BASE_URL :: version :: map py_str route).

(* ------------------------------------------------------------------ *)
(** ** Concrete collaborators, to run the model on *)

(** A server that gives every request the same answer. The limiter is
    its two settings and the constructor refuses none. *)
Definition fixed_server (answer : result Response) : Collaborators := {|
  limiter := Z * Z;
  RateLimiter := fun max_calls period => Return (max_calls, period);
  json_dumps := fun _ => "null";
  requests_get := fun _ _ _ => answer
|}.

Definition json_response (body : pyval) : Response :=
  {| Response_json := Return body |}.

(** The loader [WyscoutAPILoader('user', 'pass')] and its client, talking
    to [fixed_server answer]. *)
Definition demo_loader (answer : result Response)
  : @WyscoutAPILoader.t (fixed_server answer) :=
  @WyscoutAPILoader.Build_t (fixed_server answer)
    "user" "v3" (12, 1) [("Authorization", "Basic dXNlcjpwYXNz")].

Definition demo_client (answer : result Response)
  : @APIClient.t (fixed_server answer) :=
  @APIClient.Build_t (fixed_server answer) (demo_loader answer).

(** The error bodies of the specification's examples. *)
Definition error_body (code : Z) (message : string) : pyval :=
  PDict [("error", PDict [("code", PInt code); ("message", PStr message)])].

(* ================================================================== *)
(** * Properties *)

(** ** RFC test vectors for [b64encode] *)

Example b64encode_rfc4648_foobar :
  bytes_decode (b64encode (str_encode "foobar")) = "Zm9vYmFy".
Proof. reflexivity. Qed.

Example b64encode_rfc4648_fooba :
  bytes_decode (b64encode (str_encode "fooba")) = "Zm9vYmE=".
Proof. reflexivity. Qed.

Example b64encode_rfc4648_f :
  bytes_decode (b64encode (str_encode "f")) = "Zg==".
Proof. reflexivity. Qed.

Example b64encode_rfc7617 :
  bytes_decode (b64encode (str_encode "Aladdin:open sesame"))
  = "QWxhZGRpbjpvcGVuIHNlc2FtZQ==".
Proof. reflexivity. Qed.

(** ** Base64: decoding undoes encoding *)

Ltac div_lia := zify; Z.to_euclidean_division_equations; lia.

Lemma sextet_value_lt (n i : N) : (sextet_value n i < 64)%N.
Proof. unfold sextet_value. apply N.mod_lt. discriminate. Qed.

(** The alphabet has 64 distinct characters, none of them the padding. *)
Lemma b64_index_nth (k : nat) :
  (k < 64)%nat ->
  b64_index (nth k b64_alphabet b64_pad) = Some (N.of_nat k)
  /\ Byte.eqb (nth k b64_alphabet b64_pad) b64_pad = false.
Proof.
  intros Hk.
  assert (Hall : forallb
            (fun k =>
               match b64_index (nth k b64_alphabet b64_pad) with
               | Some j => N.eqb j (N.of_nat k)
               | None => false
               end && negb (Byte.eqb (nth k b64_alphabet b64_pad) b64_pad))
            (seq 0 64) = true)
    by (vm_compute; reflexivity).
  rewrite forallb_forall in Hall.
  assert (Hin : In k (seq 0 64)) by (apply in_seq; lia).
  apply Hall in Hin. apply andb_prop in Hin. destruct Hin as [Hidx Hpad].
  split.
  - destruct (b64_index (nth k b64_alphabet b64_pad)); [| discriminate].
    apply N.eqb_eq in Hidx. now subst.
  - now apply negb_true_iff in Hpad.
Qed.

Lemma b64_index_sextet (n i : N) : b64_index (sextet n i) = Some (sextet_value n i).
Proof.
  unfold sextet. pose proof (sextet_value_lt n i) as Hlt.
  destruct (b64_index_nth (N.to_nat (sextet_value n i))) as [H _]; [lia |].
  rewrite H. now rewrite N2Nat.id.
Qed.

Lemma sextet_not_pad (n i : N) : Byte.eqb (sextet n i) b64_pad = false.
Proof.
  unfold sextet. pose proof (sextet_value_lt n i) as Hlt.
  now destruct (b64_index_nth (N.to_nat (sextet_value n i))) as [_ H]; [lia |].
Qed.

Lemma sextet_zero (n i : N) : sextet_value n i = 0%N -> sextet n i = b64_zero.
Proof. unfold sextet. now intros ->. Qed.

Lemma sextets_regroup (n : N) :
  (n < 16777216)%N ->
  (sextet_value n 3 * 262144 + sextet_value n 2 * 4096
   + sextet_value n 1 * 64 + sextet_value n 0 = n)%N.
Proof.
  intros Hn. unfold sextet_value.
  change (64 ^ 3)%N with 262144%N. change (64 ^ 2)%N with 4096%N.
  change (64 ^ 1)%N with 64%N. change (64 ^ 0)%N with 1%N.
  div_lia.
Qed.

Lemma group24_lt (a b c : byte) : (group24 a b c < 16777216)%N.
Proof.
  unfold group24.
  pose proof (Byte.to_N_bounded a). pose proof (Byte.to_N_bounded b).
  pose proof (Byte.to_N_bounded c). lia.
Qed.

Lemma ungroup24_sextets (n : N) :
  (n < 16777216)%N ->
  ungroup24 (sextet n 3) (sextet n 2) (sextet n 1) (sextet n 0) = Some n.
Proof.
  intros Hn. unfold ungroup24. rewrite !b64_index_sextet.
  now rewrite sextets_regroup.
Qed.

Lemma group_bytes_group24 (count : nat) (a b c : byte) :
  group_bytes count (group24 a b c) = Some (firstn count [a; b; c]).
Proof.
  unfold group_bytes, byte_at, group24.
  pose proof (Byte.to_N_bounded a) as Ha. pose proof (Byte.to_N_bounded b) as Hb.
  pose proof (Byte.to_N_bounded c) as Hc.
  change (256 ^ 2)%N with 65536%N. change (256 ^ 1)%N with 256%N.
  change (256 ^ 0)%N with 1%N.
  replace (((to_N a * 65536 + to_N b * 256 + to_N c) / 65536) mod 256)%N
    with (to_N a) by div_lia.
  replace (((to_N a * 65536 + to_N b * 256 + to_N c) / 256) mod 256)%N
    with (to_N b) by div_lia.
  replace (((to_N a * 65536 + to_N b * 256 + to_N c) / 1) mod 256)%N
    with (to_N c) by div_lia.
  now rewrite !Byte.of_to_N.
Qed.

(** Induction three elements at a time, as [b64encode] recurses. *)
Lemma list_ind3 {A : Type} (P : list A -> Prop) :
  P [] -> (forall a, P [a]) -> (forall a b, P [a; b]) ->
  (forall a b c l, P l -> P (a :: b :: c :: l)) ->
  forall l, P l.
Proof.
  intros H0 H1 H2 H3 l.
  enough (H : P l /\ (forall a, P (a :: l)) /\ (forall a b, P (a :: b :: l)))
    by apply H.
  induction l as [| x l [IH0 [IH1 IH2]]].
  - now repeat split.
  - repeat split; auto.
Qed.

Lemma b64encode_nil (bs : list byte) : b64encode bs = [] -> bs = [].
Proof.
  destruct bs as [| a [| b [| c rest]]]; simpl; intros H;
    [reflexivity | discriminate ..].
Qed.

Lemma b64decode_b64encode (bs : list byte) : b64decode (b64encode bs) = Some bs.
Proof.
  induction bs as [| a | a b | a b c rest IH] using list_ind3.
  - reflexivity.
  - cbn [b64encode b64decode].
    change (Byte.eqb b64_pad b64_pad) with true. cbv iota.
    set (n := group24 a x00 x00).
    assert (Hn : (n < 16777216)%N) by apply group24_lt.
    assert (H1 : sextet_value n 1 = 0%N).
    { unfold n, sextet_value, group24. change (64 ^ 1)%N with 64%N.
      change (to_N x00) with 0%N. pose proof (Byte.to_N_bounded a). div_lia. }
    assert (H0 : sextet_value n 0 = 0%N).
    { unfold n, sextet_value, group24. change (64 ^ 0)%N with 1%N.
      change (to_N x00) with 0%N. pose proof (Byte.to_N_bounded a). div_lia. }
    rewrite <- (sextet_zero n 1 H1) at 1. rewrite <- (sextet_zero n 0 H0).
    rewrite ungroup24_sextets by assumption. simpl.
    unfold n. now rewrite group_bytes_group24.
  - cbn [b64encode b64decode].
    change (Byte.eqb b64_pad b64_pad) with true. cbv iota.
    set (n := group24 a b x00).
    assert (Hn : (n < 16777216)%N) by apply group24_lt.
    rewrite sextet_not_pad.
    assert (H0 : sextet_value n 0 = 0%N).
    { unfold n, sextet_value, group24. change (64 ^ 0)%N with 1%N.
      change (to_N x00) with 0%N. pose proof (Byte.to_N_bounded a).
      pose proof (Byte.to_N_bounded b). div_lia. }
    rewrite <- (sextet_zero n 0 H0).
    rewrite ungroup24_sextets by assumption. simpl.
    unfold n. now rewrite group_bytes_group24.
  - cbn [b64encode b64decode].
    set (n := group24 a b c).
    assert (Hn : (n < 16777216)%N) by apply group24_lt.
    rewrite ungroup24_sextets by assumption. cbn [option_bind].
    unfold n. rewrite group_bytes_group24. cbn [option_bind firstn].
    destruct (b64encode rest) as [| x enc] eqn:Henc.
    + apply b64encode_nil in Henc. subst rest.
      now rewrite sextet_not_pad.
    + rewrite IH. reflexivity.
Qed.

(** ** Strings *)

Lemma string_app_assoc (a b c : string) :
  ((a ++ b) ++ c = a ++ (b ++ c))%string.
Proof.
  induction a as [| x a IH]; simpl; [reflexivity | now rewrite IH].
Qed.

(** ** Classifying the response *)

Section Classification.

Import WyscoutAPILoader.

Lemma parse_response_error (response : Response) (content : dict pyval) (error : pyval) :
  Response_json response = Return (PDict content) ->
  dict_lookup "error" content = Some error ->
  truthy error = true ->
  _parse_response response = raise_for_error error.
Proof.
  intros Hjson Hget Htruthy.
  unfold _parse_response. rewrite Hjson. simpl.
  rewrite Hget, Htruthy. reflexivity.
Qed.

(** C2. On a body that is a mapping with a truthy [error]: a string
    error [s] raises [UnknownError(s)]; a mapping error with a [message]
    raises [AuthenticationError(message)] for code 401,
    [BadRequestError(message)] for code 400,
    [TooManyRequestsError(message)] for code 429 and
    [UnknownError(message)] for a code equal to none of the three. *)
Theorem parse_response_classifies_errors
    (response : Response) (content : dict pyval) (error : pyval) :
  Response_json response = Return (PDict content) ->
  dict_lookup "error" content = Some error ->
  truthy error = true ->
  (forall s : string,
      error = PStr s -> _parse_response response = Raise (UnknownError (PStr s)))
  /\ (forall (e : dict pyval) (code message : pyval),
        error = PDict e ->
        dict_lookup "code" e = Some code ->
        dict_lookup "message" e = Some message ->
        (code = PInt 401 ->
         _parse_response response = Raise (AuthenticationError message))
        /\ (code = PInt 400 ->
            _parse_response response = Raise (BadRequestError message))
        /\ (code = PInt 429 ->
            _parse_response response = Raise (TooManyRequestsError message))
        /\ (py_eq_int code 401 = false ->
            py_eq_int code 400 = false ->
            py_eq_int code 429 = false ->
            _parse_response response = Raise (UnknownError message))).
Proof.
  intros Hjson Hget Htruthy.
  rewrite (parse_response_error response content error Hjson Hget Htruthy).
  split.
  - intros s ->. reflexivity.
  - intros e code message -> Hcode Hmsg.
    unfold raise_for_error, py_getitem. simpl.
    rewrite Hcode, Hmsg. simpl.
    repeat split.
    + intros ->. reflexivity.
    + intros ->. reflexivity.
    + intros ->. reflexivity.
    + intros H401 H400 H429. rewrite H401, H400, H429. reflexivity.
Qed.

(** C9. On a body whose [error] is a non-empty mapping, a missing
    [code] raises [KeyError('code')] and, with a [code], a missing
    [message] raises [KeyError('message')] whatever the code is; a
    [KeyError] is no [WyscoutAPIError]. *)
Theorem parse_response_missing_key_raises_KeyError
    (response : Response) (content e : dict pyval) :
  Response_json response = Return (PDict content) ->
  dict_lookup "error" content = Some (PDict e) ->
  e <> [] ->
  (dict_lookup "code" e = None ->
   _parse_response response = Raise (KeyError "code"))
  /\ (forall code : pyval,
        dict_lookup "code" e = Some code ->
        dict_lookup "message" e = None ->
        _parse_response response = Raise (KeyError "message"))
  /\ (forall key : string, is_WyscoutAPIError (KeyError key) = false).
Proof.
  intros Hjson Hget Hne.
  assert (Htruthy : truthy (PDict e) = true) by (destruct e; [contradiction | reflexivity]).
  rewrite (parse_response_error response content (PDict e) Hjson Hget Htruthy).
  unfold raise_for_error, py_getitem. simpl.
  repeat split.
  - intros Hcode. rewrite Hcode. reflexivity.
  - intros code Hcode Hmsg. rewrite Hcode, Hmsg. simpl.
    destruct (py_eq_int code 401); [reflexivity |].
    destruct (py_eq_int code 400); [reflexivity |].
    destruct (py_eq_int code 429); reflexivity.
Qed.

(** A body that is no mapping, or a mapping with no truthy [error], is
    returned as it is. *)
Lemma parse_response_returns_body (response : Response) (body : pyval) :
  Response_json response = Return body ->
  (exists items : list pyval, body = PList items)
  \/ (exists d : dict pyval,
        body = PDict d
        /\ (dict_lookup "error" d = None
            \/ exists e : pyval, dict_lookup "error" d = Some e /\ truthy e = false)) ->
  _parse_response response = Return body.
Proof.
  intros Hjson Hbody. unfold _parse_response. rewrite Hjson. simpl.
  destruct Hbody as [[items ->] | [d [-> [Hnone | [e [Hsome Hfalsy]]]]]]; simpl.
  - reflexivity.
  - rewrite Hnone. reflexivity.
  - rewrite Hsome, Hfalsy. reflexivity.
Qed.

End Classification.

(** ** Dictionaries and the query string *)

Lemma dict_value_unique {V : Type} (d : dict V) (k : string) (v v' : V) :
  NoDup (dict_keys d) -> In (k, v) d -> In (k, v') d -> v = v'.
Proof.
  unfold dict_keys.
  induction d as [| [k0 v0] d IH]; simpl; intros Hnd Hv Hv'.
  - contradiction.
  - inversion Hnd as [| ? ? Hnotin Hnd']; subst.
    destruct Hv as [Hv | Hv], Hv' as [Hv' | Hv'].
    + congruence.
    + inversion Hv; subst. exfalso. apply Hnotin.
      change k with (fst (k, v')). now apply in_map.
    + inversion Hv'; subst. exfalso. apply Hnotin.
      change k with (fst (k, v)). now apply in_map.
    + now apply IH.
Qed.

Lemma query_entries_in (params : dict pyval) (k : string) (v : pyval) :
  In (k, v) (query_entries params) <-> In (k, v) params /\ v <> PNone.
Proof.
  unfold query_entries. rewrite filter_In. simpl.
  split; intros [Hin Hv]; split; try assumption.
  - intros ->. discriminate.
  - destruct v; try reflexivity. contradiction.
Qed.

(* ------------------------------------------------------------------ *)
(** ** The loader and the facade, for all collaborators *)

Section Loader.

Context `{C : Collaborators}.

Import WyscoutAPILoader.

(** ** The parameter loop *)

Lemma fold_left_unchanged {A B : Type} (f : A -> B -> A) (l : list B) (a : A) :
  (forall x y, f x y = x) -> fold_left f l a = a.
Proof.
  intros Hf. revert a.
  induction l as [| y l IH]; intros a; simpl.
  - reflexivity.
  - rewrite Hf. apply IH.
Qed.

(** No key of [**params] is a [bool], so the loop changes nothing. *)
Lemma convert_bools_id (params : dict pyval) : convert_bools params = params.
Proof.
  unfold convert_bools. apply fold_left_unchanged.
  intros ps [param val]. reflexivity.
Qed.

(** ** One call, step by step *)

Lemma get_route_json_steps (self : WyscoutAPILoader.t) (route : list segment)
    (params : dict pyval) (tr : list event) :
  get_route_json self route params tr
  = (result_bind (requests_get (_url self route) (headers self) params) _parse_response,
     tr ++ call_events self route params).
Proof.
  unfold get_route_json. rewrite convert_bools_id.
  unfold bind, with_limiter, http_get, bind, emit, lift, call_events.
  destruct (requests_get (_url self route) (headers self) params) as [r | e]; simpl;
    rewrite <- !app_assoc; reflexivity.
Qed.

(** C3. When the decoded body is a list, or a mapping whose [error] is
    absent or falsy, [get_route_json] returns that body. *)
Theorem get_route_json_returns_body_verbatim
    (self : WyscoutAPILoader.t) (route : list segment) (params : dict pyval)
    (response : Response) (body : pyval) (tr : list event) :
  requests_get (_url self route) (headers self) params = Return response ->
  Response_json response = Return body ->
  (exists items : list pyval, body = PList items)
  \/ (exists d : dict pyval,
        body = PDict d
        /\ (dict_lookup "error" d = None
            \/ exists e : pyval, dict_lookup "error" d = Some e /\ truthy e = false)) ->
  fst (get_route_json self route params tr) = Return body.
Proof.
  intros Hget Hjson Hbody.
  rewrite get_route_json_steps, Hget. simpl.
  now apply parse_response_returns_body.
Qed.

(** ** What is sent *)

(** C4. [get_route_json] hands its [params] to the HTTP client as they
    are, and in the query string the client builds from them no entry
    has the value [None]: every other entry is there, and the key of a
    [None] entry is not. *)
Theorem none_params_left_out_of_query
    (self : WyscoutAPILoader.t) (route : list segment) (params : dict pyval)
    (tr : list event) :
  snd (get_route_json self route params tr) = tr ++ call_events self route params
  /\ (forall k : string, ~ In (k, PNone) (query_entries params))
  /\ (forall (k : string) (v : pyval),
        In (k, v) params -> v <> PNone -> In (k, v) (query_entries params))
  /\ (forall k : string,
        NoDup (dict_keys params) ->
        In (k, PNone) params ->
        ~ In k (dict_keys (query_entries params))).
Proof.
  rewrite get_route_json_steps. simpl.
  split; [reflexivity |]. split; [| split].
  - intros k Hin. apply query_entries_in in Hin. now destruct Hin.
  - intros k v Hin Hv. apply query_entries_in. now split.
  - intros k Hnd Hnone Hkey.
    unfold dict_keys in Hkey. apply in_map_iff in Hkey.
    destruct Hkey as [[k' v] [Hk Hin]]. simpl in Hk. subst k'.
    apply query_entries_in in Hin. destruct Hin as [Hin Hv].
    apply Hv. exact (dict_value_unique params k v PNone Hnd Hin Hnone).
Qed.

(** C1, as the code has it. [competition_seasons(id, active=b)] sends
    the Python boolean itself: the value of [active] in the request is
    [PBool b], in the query entries too, and not the string [true] or
    [false], whatever [json.dumps] is. *)
Theorem competition_seasons_sends_python_bool
    (client : APIClient.t) (competition_id : segment) (b : bool) (tr : list event) :
  let sent := [("active", PBool b); ("details", PNone); ("fetch", PNone)] in
  snd (APIClient.competition_seasons client competition_id (PBool b) PNone PNone tr)
  = tr ++ call_events (APIClient.loader client)
            [SegStr "competitions"; competition_id; SegStr "seasons"] sent
  /\ query_entries sent = [("active", PBool b)]
  /\ PBool b <> PStr (if b then "true" else "false").
Proof.
  intros sent. unfold APIClient.competition_seasons.
  rewrite get_route_json_steps. simpl.
  repeat split. discriminate.
Qed.

(** ** The facade *)

(** C10. [team_career] is the same computation whatever [season_id] is:
    one GET of [teams/<team_id>/career] whose parameters are [details]
    and [fetch] only. *)
Theorem team_career_never_forwards_season_id
    (client : APIClient.t) (team_id : segment) (season_id details fetch : pyval) :
  APIClient.team_career client team_id season_id details fetch
  = APIClient.team_career client team_id PNone details fetch
  /\ APIClient.team_career client team_id season_id details fetch
     = get_route_json (APIClient.loader client)
         [SegStr "teams"; team_id; SegStr "career"]
         [("details", details); ("fetch", fetch)]
  /\ forall tr : list event,
       snd (APIClient.team_career client team_id season_id details fetch tr)
       = tr ++ call_events (APIClient.loader client)
                 [SegStr "teams"; team_id; SegStr "career"]
                 [("details", details); ("fetch", fetch)].
Proof.
  repeat split.
  intros tr. unfold APIClient.team_career.
  rewrite get_route_json_steps. reflexivity.
Qed.

(** [team_squad], the sibling, does forward it. *)
Lemma team_squad_forwards_season_id
    (client : APIClient.t) (team_id : segment) (season_id details fetch : pyval)
    (tr : list event) :
  snd (APIClient.team_squad client team_id season_id details fetch tr)
  = tr ++ call_events (APIClient.loader client)
            [SegStr "teams"; team_id; SegStr "squad"]
            [("seasonId", season_id); ("details", details); ("fetch", fetch)].
Proof.
  unfold APIClient.team_squad. rewrite get_route_json_steps. reflexivity.
Qed.

(** C8. When the decoded body is a mapping with no truthy [error] that
    binds [object_type] to [v], [updated_objects(timestamp, object_type)]
    returns [v]. *)
Theorem updated_objects_returns_value_at_object_type
    (client : APIClient.t) (timestamp : pyval) (object_type : string)
    (response : Response) (d : dict pyval) (v : pyval) (tr : list event) :
  requests_get
    (_url (APIClient.loader client) [SegStr "updatedobjects"])
    (headers (APIClient.loader client))
    [("updated_since", timestamp); ("type", PStr object_type)]
  = Return response ->
  Response_json response = Return (PDict d) ->
  (dict_lookup "error" d = None
   \/ exists e : pyval, dict_lookup "error" d = Some e /\ truthy e = false) ->
  dict_lookup object_type d = Some v ->
  fst (APIClient.updated_objects client timestamp object_type tr) = Return v.
Proof.
  intros Hget Hjson Herr Hv.
  unfold APIClient.updated_objects, bind.
  rewrite get_route_json_steps, Hget. simpl.
  rewrite (parse_response_returns_body response (PDict d) Hjson)
    by (right; exists d; split; [reflexivity | exact Herr]).
  unfold lift, py_getitem. simpl. rewrite Hv. reflexivity.
Qed.

(** ** URLs *)

(** C6. For every route, [_url] yields the base host, the version and
    the segments, each coerced with [str], separated by [/]: this is the
    format string of the source for every route, it is the join of all
    the parts as the specification words it for every route with a
    segment, and with version [v3] the route [teams, 123, squad] gives
    [https://apirest.wyscout.com/v3/teams/123/squad]. *)
Theorem url_joins_base_version_segments :
  (forall (self : WyscoutAPILoader.t) (route : list segment),
     _url self route
     = (BASE_URL ++ "/" ++ version self ++ "/"
        ++ String.concat "/" (map py_str route))%string)
  /\ (forall (self : WyscoutAPILoader.t) (s : segment) (rest : list segment),
       _url self (s :: rest) = BuildURL_spec (version self) (s :: rest))
  /\ (forall (u : string) (rl : limiter) (h : dict string),
       _url {| username := u; version := "v3"; rate_limiter := rl; headers := h |}
         [SegStr "teams"; SegInt 123; SegStr "squad"]
       = "https://apirest.wyscout.com/v3/teams/123/squad").
Proof.
  split; [| split].
  - intros self route. reflexivity.
  - intros self s rest. unfold _url, BuildURL_spec. reflexivity.
  - intros u rl h. reflexivity.
Qed.

(** X17. With no segment the format string leaves a trailing [/]. *)
Lemma url_empty_route (self : WyscoutAPILoader.t) :
  _url self [] = (BuildURL_spec (version self) [] ++ "/")%string.
Proof.
  unfold _url, BuildURL_spec. cbn [map String.concat].
  rewrite !string_app_assoc. reflexivity.
Qed.

(** ** The constructor *)

(** C7. When the limiter is built, the constructor returns a loader
    whose [username] is the one given and whose only header is
    [Authorization: Basic base64(username:password)]; with another
    password the fields [username], [version] and [rate_limiter] are the
    same, so the password is held by no field but the header. *)
Theorem init_stores_username_and_basic_auth
    (username password version : string) (requests_per_sec : Z) (rl : limiter) :
  RateLimiter requests_per_sec 1 = Return rl ->
  exists self : WyscoutAPILoader.t,
    __init__ username password version requests_per_sec = Return self
    /\ WyscoutAPILoader.username self = username
    /\ headers self
       = [("Authorization",
           ("Basic " ++ bytes_decode
              (b64encode (str_encode (username ++ ":" ++ password))))%string)]
    /\ forall password' : string,
         exists self' : WyscoutAPILoader.t,
           __init__ username password' version requests_per_sec = Return self'
           /\ WyscoutAPILoader.username self' = WyscoutAPILoader.username self
           /\ WyscoutAPILoader.version self' = WyscoutAPILoader.version self
           /\ rate_limiter self' = rate_limiter self.
Proof.
  intros Hrl. unfold __init__. rewrite Hrl. simpl.
  eexists. split; [reflexivity |]. simpl.
  repeat split.
  intros password'. eexists. split; [reflexivity |]. simpl. repeat split.
Qed.

(** X2. The header is plain Base64: decoding the token after [Basic ] gives
    [username:password] back. *)
Theorem authorization_header_decodes_to_credentials
    (username password version : string) (requests_per_sec : Z)
    (self : WyscoutAPILoader.t) :
  __init__ username password version requests_per_sec = Return self ->
  exists token : string,
    headers self = [("Authorization", ("Basic " ++ token)%string)]
    /\ option_map bytes_decode (b64decode (str_encode token))
       = Some (username ++ ":" ++ password)%string.
Proof.
  unfold __init__. intros Hinit.
  destruct (RateLimiter requests_per_sec 1) as [rl | e]; simpl in Hinit;
    [| discriminate].
  injection Hinit as <-. simpl.
  eexists. split; [reflexivity |].
  unfold str_encode, bytes_decode.
  rewrite list_byte_of_string_of_list_byte, b64decode_b64encode. simpl.
  now rewrite string_of_list_byte_of_string.
Qed.

(** X3. The limiter of a loader is [RateLimiter(max_calls=requests_per_sec,
    period=1)], and the constructor raises what that call raises. *)
Theorem init_builds_limiter_from_requests_per_sec
    (username password version : string) (requests_per_sec : Z) :
  (forall self : WyscoutAPILoader.t,
      __init__ username password version requests_per_sec = Return self ->
      RateLimiter requests_per_sec 1 = Return (rate_limiter self))
  /\ (forall e : exn,
        RateLimiter requests_per_sec 1 = Raise e ->
        __init__ username password version requests_per_sec = Raise e).
Proof.
  unfold __init__. split.
  - intros self Hinit.
    destruct (RateLimiter requests_per_sec 1) as [rl | e]; simpl in Hinit;
      [| discriminate].
    injection Hinit as <-. reflexivity.
  - intros e ->. reflexivity.
Qed.

(** X1. One [get_route_json] is one GET, issued between entering and leaving
    the loader's limiter, to the URL of the route, with the loader's
    headers and the caller's [params] as they came; the limiter is left
    also when the GET raises. *)
Theorem get_route_json_one_get_inside_limiter
    (self : WyscoutAPILoader.t) (route : list segment) (params : dict pyval)
    (tr : list event) :
  snd (get_route_json self route params tr)
  = tr ++ [LimiterEnter (rate_limiter self);
           HttpGet (_url self route) (headers self) params;
           LimiterExit (rate_limiter self)].
Proof.
  rewrite get_route_json_steps. reflexivity.
Qed.

(** X4. The loop of lines 79-81 changes no parameter, whatever [json.dumps]
    is: its test never holds. *)
Theorem bool_conversion_loop_changes_nothing (params : dict pyval) :
  convert_bools params = params.
Proof.
  apply convert_bools_id.
Qed.

End Loader.

(* ------------------------------------------------------------------ *)
(** ** The theorems at concrete inputs *)

Lemma authorization_header_decodes_to_credentials_witness :
  option_map bytes_decode (b64decode (str_encode "dXNlcjpwYXNz")) = Some "user:pass".
Proof.
  destruct (@authorization_header_decodes_to_credentials (fixed_server (Raise TypeError))
              "user" "pass" "v3" 12 (demo_loader (Raise TypeError)) eq_refl)
    as [token [Hhdr Hdec]].
  injection Hhdr as <-. exact Hdec.
Defined.

Lemma init_builds_limiter_from_requests_per_sec_witness :
  @RateLimiter (fixed_server (Raise TypeError)) 12 1 = Return (12, 1).
Proof.
  exact (proj1 (@init_builds_limiter_from_requests_per_sec (fixed_server (Raise TypeError))
                  "user" "pass" "v3" 12)
           (demo_loader (Raise TypeError)) eq_refl).
Defined.

Lemma init_stores_username_and_basic_auth_witness :
  exists self : @WyscoutAPILoader.t (fixed_server (Raise TypeError)),
    @WyscoutAPILoader.__init__ (fixed_server (Raise TypeError)) "user" "pass" "v3" 12
    = Return self
    /\ WyscoutAPILoader.username self = "user"
    /\ WyscoutAPILoader.headers self = [("Authorization", "Basic dXNlcjpwYXNz")].
Proof.
  destruct (@init_stores_username_and_basic_auth (fixed_server (Raise TypeError))
              "user" "pass" "v3" 12 (12, 1) eq_refl)
    as [self [Hinit [Huser [Hhdr _]]]].
  exists self. repeat split; assumption.
Defined.

Lemma parse_response_classifies_errors_witness :
  WyscoutAPILoader._parse_response (json_response (error_body 401 "bad creds"))
  = Raise (AuthenticationError (PStr "bad creds"))
  /\ WyscoutAPILoader._parse_response (json_response (error_body 400 "m"))
     = Raise (BadRequestError (PStr "m"))
  /\ WyscoutAPILoader._parse_response (json_response (error_body 429 "m"))
     = Raise (TooManyRequestsError (PStr "m"))
  /\ WyscoutAPILoader._parse_response (json_response (error_body 999 "m"))
     = Raise (UnknownError (PStr "m"))
  /\ WyscoutAPILoader._parse_response
       (json_response (PDict [("error", PStr "oops")]))
     = Raise (UnknownError (PStr "oops")).
Proof.
  assert (Hdict : forall (code : Z) (message : string),
             let e := [("code", PInt code); ("message", PStr message)] in
             _ /\ _ /\ _ /\ _)
    by (intros code message e;
        exact (proj2 (parse_response_classifies_errors
                        (json_response (error_body code message))
                        [("error", PDict e)] (PDict e) eq_refl eq_refl eq_refl)
                 e (PInt code) (PStr message) eq_refl eq_refl eq_refl)).
  refine (conj _ (conj _ (conj _ (conj _ _)))).
  - exact (proj1 (Hdict 401 "bad creds") eq_refl).
  - exact (proj1 (proj2 (Hdict 400 "m")) eq_refl).
  - exact (proj1 (proj2 (proj2 (Hdict 429 "m"))) eq_refl).
  - exact (proj2 (proj2 (proj2 (Hdict 999 "m"))) eq_refl eq_refl eq_refl).
  - exact (proj1 (parse_response_classifies_errors
                    (json_response (PDict [("error", PStr "oops")]))
                    [("error", PStr "oops")] (PStr "oops") eq_refl eq_refl eq_refl)
             "oops" eq_refl).
Defined.

Lemma parse_response_missing_key_raises_KeyError_witness :
  WyscoutAPILoader._parse_response
    (json_response (PDict [("error", PDict [("message", PStr "no code")])]))
  = Raise (KeyError "code")
  /\ WyscoutAPILoader._parse_response
       (json_response (PDict [("error", PDict [("code", PInt 401)])]))
     = Raise (KeyError "message").
Proof.
  split.
  - refine (proj1 (parse_response_missing_key_raises_KeyError
                     (json_response (PDict [("error", PDict [("message", PStr "no code")])]))
                     [("error", PDict [("message", PStr "no code")])]
                     [("message", PStr "no code")] eq_refl eq_refl _) eq_refl).
    discriminate.
  - refine (proj1 (proj2 (parse_response_missing_key_raises_KeyError
                     (json_response (PDict [("error", PDict [("code", PInt 401)])]))
                     [("error", PDict [("code", PInt 401)])]
                     [("code", PInt 401)] eq_refl eq_refl _)) (PInt 401) eq_refl eq_refl).
    discriminate.
Defined.

Lemma get_route_json_returns_body_verbatim_witness :
  let body := PList [PInt 1; PInt 2; PInt 3] in
  let answer := Return (json_response body) in
  fst (@WyscoutAPILoader.get_route_json (fixed_server answer) (demo_loader answer)
         [SegStr "areas"] [("details", PNone)] [])
  = Return body.
Proof.
  intros body answer.
  apply (@get_route_json_returns_body_verbatim (fixed_server answer) (demo_loader answer)
           [SegStr "areas"] [("details", PNone)] (json_response body) body []).
  - reflexivity.
  - reflexivity.
  - left. exists [PInt 1; PInt 2; PInt 3]. reflexivity.
Defined.

Lemma none_params_left_out_of_query_witness :
  let params := [("details", PNone); ("fetch", PStr "competition")] in
  ~ In "details" (dict_keys (query_entries params))
  /\ In ("fetch", PStr "competition") (query_entries params).
Proof.
  intros params.
  destruct (@none_params_left_out_of_query (fixed_server (Raise TypeError))
              (demo_loader (Raise TypeError)) [SegStr "areas"] params [])
    as [_ [_ [Hkept Hdropped]]].
  split.
  - apply Hdropped.
    + repeat constructor; simpl; intuition discriminate.
    + simpl. left. reflexivity.
  - apply Hkept.
    + simpl. right. left. reflexivity.
    + discriminate.
Defined.

Lemma updated_objects_returns_value_at_object_type_witness :
  let players := PList [PInt 7; PInt 9] in
  let answer := Return (json_response (PDict [("players", players)])) in
  fst (@APIClient.updated_objects (fixed_server answer) (demo_client answer)
         (PStr "2018-02-09 18:00:00") "players" [])
  = Return players.
Proof.
  intros players answer.
  apply (@updated_objects_returns_value_at_object_type (fixed_server answer)
           (demo_client answer) (PStr "2018-02-09 18:00:00") "players"
           (json_response (PDict [("players", players)])) [("players", players)]
           players []).
  - reflexivity.
  - reflexivity.
  - left. reflexivity.
  - reflexivity.
Defined.

(* ================================================================== *)
(** * Further properties of the code *)

(** ** [_parse_response]: what comes back and what is raised *)

Section ClassificationEdges.

Import WyscoutAPILoader.

(** The body of [if error:] has no path that returns. *)
Lemma raise_for_error_raises (error : pyval) :
  exists e : exn, raise_for_error error = Raise e.
Proof.
  unfold raise_for_error.
  destruct (isinstance_str error); [eauto |].
  destruct (py_getitem error "code") as [code | e]; simpl; [| eauto].
  destruct (py_getitem error "message") as [m | e];
    destruct (py_eq_int code 401), (py_eq_int code 400), (py_eq_int code 429);
    simpl; eauto.
Qed.

Lemma raise_for_error_kinds (error : pyval) (e : exn) :
  raise_for_error error = Raise e ->
  is_WyscoutAPIError e = true
  \/ e = KeyError "code" \/ e = KeyError "message" \/ e = TypeError.
Proof.
  unfold raise_for_error.
  destruct error as [| b | n | f | s | items | d]; simpl;
    try (intros H; injection H as <-; auto).
  destruct (dict_lookup "code" d) as [code |]; simpl;
    [| intros H; injection H as <-; auto].
  destruct (dict_lookup "message" d) as [m |];
    destruct (py_eq_int code 401), (py_eq_int code 400), (py_eq_int code 429);
    simpl; intros H; injection H as <-; auto.
Qed.

(** X5. Whatever [_parse_response] returns is the decoded body itself, and
    then the body has no truthy [error]. *)
Theorem parse_response_returns_nothing_but_the_body
    (response : Response) (v : pyval) :
  _parse_response response = Return v ->
  Response_json response = Return v
  /\ forall (d : dict pyval) (error : pyval),
       v = PDict d -> dict_lookup "error" d = Some error -> truthy error = false.
Proof.
  unfold _parse_response.
  destruct (Response_json response) as [content | e]; simpl; [| discriminate].
  destruct content as [| b | n | f | s | items | d]; simpl;
    try (intros H; injection H as <-; split; [reflexivity | discriminate]).
  destruct (dict_lookup "error" d) as [error |] eqn:Hget; simpl.
  - destruct (truthy error) eqn:Htruthy.
    + destruct (raise_for_error_raises error) as [e He]. rewrite He. discriminate.
    + intros H; injection H as <-. split; [reflexivity |].
      intros d' error' Hd Hget'. injection Hd as <-. congruence.
  - intros H; injection H as <-. split; [reflexivity |].
    intros d' error' Hd Hget'. injection Hd as <-. congruence.
Qed.

(** X6. When the body was decoded and [_parse_response] raises, the body is
    a mapping with a truthy [error], and the exception is one of the
    four API errors, a [KeyError] on [code] or [message], or a
    [TypeError]: an [AttributeError] never leaves the function. *)
Theorem parse_response_raises_only_on_truthy_error
    (response : Response) (content : pyval) (e : exn) :
  Response_json response = Return content ->
  _parse_response response = Raise e ->
  (exists (d : dict pyval) (error : pyval),
      content = PDict d /\ dict_lookup "error" d = Some error /\ truthy error = true)
  /\ (is_WyscoutAPIError e = true
      \/ e = KeyError "code" \/ e = KeyError "message" \/ e = TypeError).
Proof.
  intros Hjson. unfold _parse_response. rewrite Hjson. simpl.
  destruct content as [| b | n | f | s | items | d]; simpl; try discriminate.
  destruct (dict_lookup "error" d) as [error |] eqn:Hget; simpl; [| discriminate].
  destruct (truthy error) eqn:Htruthy; [| discriminate].
  intros Hraise. split.
  - exists d, error. auto.
  - now apply raise_for_error_kinds with (error := error).
Qed.

(** X7. A truthy [error] that is neither a string nor a mapping (a number,
    [true], a list) is subscripted all the same: the call raises
    [TypeError], which is no [WyscoutAPIError]. *)
Theorem parse_response_scalar_error_raises_TypeError
    (response : Response) (content : dict pyval) (error : pyval) :
  Response_json response = Return (PDict content) ->
  dict_lookup "error" content = Some error ->
  truthy error = true ->
  isinstance_str error = false ->
  (forall e : dict pyval, error <> PDict e) ->
  _parse_response response = Raise TypeError
  /\ is_WyscoutAPIError TypeError = false.
Proof.
  intros Hjson Hget Htruthy Hstr Hdict.
  rewrite (parse_response_error response content error Hjson Hget Htruthy).
  split; [| reflexivity].
  unfold raise_for_error. rewrite Hstr.
  destruct error as [| b | n | f | s | items | d]; try reflexivity.
  exfalso. now apply (Hdict d).
Qed.

(** X8. The code is compared with [==]: a float code whose value is 401 is
    an [AuthenticationError] like the integer, while a code that is a
    string or [null] equals no number and gives [UnknownError]. *)
Theorem parse_response_compares_code_by_value
    (response : Response) (content e : dict pyval) (code message : pyval) :
  Response_json response = Return (PDict content) ->
  dict_lookup "error" content = Some (PDict e) ->
  dict_lookup "code" e = Some code ->
  dict_lookup "message" e = Some message ->
  (forall f : spec_float,
      code = PFloat f -> float_eq_int f 401 = true ->
      _parse_response response = Raise (AuthenticationError message))
  /\ (forall s : string,
        code = PStr s -> _parse_response response = Raise (UnknownError message))
  /\ (code = PNone -> _parse_response response = Raise (UnknownError message)).
Proof.
  intros Hjson Hget Hcode Hmsg.
  assert (Htruthy : truthy (PDict e) = true)
    by (destruct e; [discriminate Hcode | reflexivity]).
  rewrite (parse_response_error response content (PDict e) Hjson Hget Htruthy).
  unfold raise_for_error, py_getitem. simpl. rewrite Hcode, Hmsg. simpl.
  split; [| split].
  - intros f -> Hf. simpl. rewrite Hf. reflexivity.
  - intros s ->. reflexivity.
  - intros ->. reflexivity.
Qed.

End ClassificationEdges.

(* ------------------------------------------------------------------ *)
(** ** The loader and the facade: failures, composition, coverage *)

(** *** Joining strings *)

Lemma concat_cons_cons (sep x y : string) (l : list string) :
  String.concat sep (x :: y :: l) = (x ++ sep ++ String.concat sep (y :: l))%string.
Proof. reflexivity. Qed.

Lemma concat_snoc (sep x y : string) (l : list string) :
  String.concat sep ((x :: l) ++ [y])
  = (String.concat sep (x :: l) ++ sep ++ y)%string.
Proof.
  revert x. induction l as [| z l IH]; intros x.
  - reflexivity.
  - change ((x :: z :: l) ++ [y]) with (x :: ((z :: l) ++ [y])).
    destruct ((z :: l) ++ [y]) as [| w t] eqn:Ht; [discriminate |].
    rewrite concat_cons_cons, <- Ht, IH, concat_cons_cons.
    now rewrite !string_app_assoc.
Qed.

Lemma concat_slash_inside (sep a b : string) (l1 l2 : list string) :
  String.concat sep (l1 ++ (a ++ sep ++ b)%string :: l2)
  = String.concat sep (l1 ++ a :: b :: l2).
Proof.
  induction l1 as [| x l1 IH].
  - destruct l2 as [| y l2]; [reflexivity |].
    cbn [app]. rewrite !concat_cons_cons. now rewrite !string_app_assoc.
  - cbn [app].
    destruct (l1 ++ (a ++ sep ++ b)%string :: l2) as [| w t] eqn:Ht;
      [destruct l1; discriminate |].
    destruct (l1 ++ a :: b :: l2) as [| w' t'] eqn:Ht';
      [destruct l1; discriminate |].
    rewrite !concat_cons_cons. now rewrite IH.
Qed.

Section LoaderEdges.

Context `{C : Collaborators}.

Import WyscoutAPILoader.

(** *** URLs *)

(** X15. The URL of a route with one more segment is the URL of the route,
    a [/] and the segment: the URL of a sub-resource extends the URL of
    its resource. *)
Theorem url_of_longer_route
    (self : WyscoutAPILoader.t) (s0 : segment) (rest : list segment) (s : segment) :
  _url self ((s0 :: rest) ++ [s])
  = (_url self (s0 :: rest) ++ "/" ++ py_str s)%string.
Proof.
  unfold _url. rewrite map_app. cbn [map].
  rewrite concat_snoc. now rewrite !string_app_assoc.
Qed.

(** X16. Segments are not escaped: a segment with a [/] inside gives the
    URL of the two segments it splits into. *)
Theorem url_does_not_escape_slash
    (self : WyscoutAPILoader.t) (before after : list segment) (a b : string) :
  _url self (before ++ SegStr (a ++ "/" ++ b) :: after)
  = _url self (before ++ SegStr a :: SegStr b :: after).
Proof.
  unfold _url. rewrite !map_app. cbn [map py_str].
  now rewrite concat_slash_inside.
Qed.

(** *** Failures of the collaborators *)

(** X9. What [requests.get] or [response.json()] raises is what
    [get_route_json] raises, unchanged. *)
Theorem get_route_json_propagates_failures
    (self : WyscoutAPILoader.t) (route : list segment) (params : dict pyval)
    (tr : list event) (e : exn) :
  (requests_get (_url self route) (headers self) params = Raise e ->
   fst (get_route_json self route params tr) = Raise e)
  /\ (forall response : Response,
        requests_get (_url self route) (headers self) params = Return response ->
        Response_json response = Raise e ->
        fst (get_route_json self route params tr) = Raise e).
Proof.
  rewrite get_route_json_steps. simpl. split.
  - intros ->. reflexivity.
  - intros response -> Hjson. simpl. unfold _parse_response. now rewrite Hjson.
Qed.

(** *** [updated_objects] *)

Lemma updated_objects_steps (client : APIClient.t) (timestamp : pyval)
    (object_type : string) (tr : list event) :
  APIClient.updated_objects client timestamp object_type tr
  = (result_bind
       (fst (get_route_json (APIClient.loader client) [SegStr "updatedobjects"]
               [("updated_since", timestamp); ("type", PStr object_type)] tr))
       (fun content => py_getitem content object_type),
     snd (get_route_json (APIClient.loader client) [SegStr "updatedobjects"]
            [("updated_since", timestamp); ("type", PStr object_type)] tr)).
Proof.
  unfold APIClient.updated_objects, bind, lift.
  destruct (get_route_json _ _ _ tr) as [[content | e] tr']; reflexivity.
Qed.

(** X10. When the call succeeds with a body that does not bind [object_type],
    [updated_objects] raises [KeyError(object_type)] if the body is a
    mapping and [TypeError] if it is not (a list, say). *)
Theorem updated_objects_bad_body
    (client : APIClient.t) (timestamp : pyval) (object_type : string)
    (body : pyval) (tr : list event) :
  fst (get_route_json (APIClient.loader client) [SegStr "updatedobjects"]
         [("updated_since", timestamp); ("type", PStr object_type)] tr)
  = Return body ->
  (forall d : dict pyval,
      body = PDict d -> dict_lookup object_type d = None ->
      fst (APIClient.updated_objects client timestamp object_type tr)
      = Raise (KeyError object_type))
  /\ ((forall d : dict pyval, body <> PDict d) ->
      fst (APIClient.updated_objects client timestamp object_type tr)
      = Raise TypeError).
Proof.
  intros Hcall. rewrite updated_objects_steps. simpl. rewrite Hcall. simpl.
  split.
  - intros d -> Hnone. simpl. now rewrite Hnone.
  - intros Hnodict. destruct body; try reflexivity.
    exfalso. now eapply Hnodict.
Qed.

(** X11. When the call raises, [updated_objects] raises the same exception,
    and in every case it does what the one call does and no more. *)
Theorem updated_objects_propagates_errors
    (client : APIClient.t) (timestamp : pyval) (object_type : string)
    (tr : list event) :
  (forall e : exn,
      fst (get_route_json (APIClient.loader client) [SegStr "updatedobjects"]
             [("updated_since", timestamp); ("type", PStr object_type)] tr)
      = Raise e ->
      fst (APIClient.updated_objects client timestamp object_type tr) = Raise e)
  /\ snd (APIClient.updated_objects client timestamp object_type tr)
     = tr ++ call_events (APIClient.loader client) [SegStr "updatedobjects"]
               [("updated_since", timestamp); ("type", PStr object_type)].
Proof.
  rewrite updated_objects_steps. simpl. split.
  - intros e ->. reflexivity.
  - now rewrite get_route_json_steps.
Qed.

(** *** Arguments of the facade *)

(** X12. [season_career] never sends [filters=None]: a falsy [filters] is
    replaced by the empty mapping, a truthy one is sent as it is. *)
Theorem season_career_replaces_falsy_filters
    (client : APIClient.t) (season_id : segment) (filters details fetch : pyval)
    (tr : list event) :
  exists sent : pyval,
    snd (APIClient.season_career client season_id filters details fetch tr)
    = tr ++ call_events (APIClient.loader client)
              [SegStr "seasons"; season_id; SegStr "career"]
              [("filters", sent); ("details", details); ("fetch", fetch)]
    /\ sent <> PNone
    /\ (truthy filters = true -> sent = filters)
    /\ (truthy filters = false -> sent = PDict []).
Proof.
  unfold APIClient.season_career. rewrite get_route_json_steps. simpl.
  eexists. split; [reflexivity |].
  destruct (truthy filters) eqn:Htruthy.
  - repeat split; try discriminate. intros ->. discriminate.
  - repeat split; discriminate.
Qed.

(** X13. The boolean flag of [match], [player], [team] and
    [competition_seasons] is sent on every call, [False] included, and
    as the Python boolean: it is an entry of the query. *)
Theorem boolean_flags_are_always_sent
    (client : APIClient.t) (id : segment) (b : bool) (details fetch : pyval)
    (tr : list event) :
  let flag (name : string) := [(name, PBool b); ("details", details); ("fetch", fetch)] in
  (snd (APIClient.match_ client id (PBool b) details fetch tr)
   = tr ++ call_events (APIClient.loader client) [SegStr "matches"; id] (flag "useSides"))
  /\ (snd (APIClient.player client id (PBool b) details fetch tr)
      = tr ++ call_events (APIClient.loader client) [SegStr "players"; id]
                (flag "imageDataURL"))
  /\ (snd (APIClient.team client id (PBool b) details fetch tr)
      = tr ++ call_events (APIClient.loader client) [SegStr "teams"; id]
                (flag "imageDataURL"))
  /\ (snd (APIClient.competition_seasons client id (PBool b) details fetch tr)
      = tr ++ call_events (APIClient.loader client)
                [SegStr "competitions"; id; SegStr "seasons"] (flag "active"))
  /\ forall name : string, In (name, PBool b) (query_entries (flag name)).
Proof.
  intros flag.
  unfold APIClient.match_, APIClient.player, APIClient.team,
    APIClient.competition_seasons.
  rewrite !get_route_json_steps. simpl.
  repeat split. intros name. left. reflexivity.
Qed.

(** *** Every method is one request *)

Lemma one_get_get_route_json (self : WyscoutAPILoader.t) (route : list segment)
    (params : dict pyval) :
  one_get self (get_route_json self route params).
Proof.
  exists route, params. intros tr. now rewrite get_route_json_steps.
Qed.

Lemma one_get_updated_objects (client : APIClient.t) (timestamp : pyval)
    (object_type : string) :
  one_get (APIClient.loader client)
    (APIClient.updated_objects client timestamp object_type).
Proof.
  eexists. eexists. intros tr.
  rewrite updated_objects_steps. simpl. now rewrite get_route_json_steps.
Qed.

(** X14. Each method of the facade, on each call, does exactly one
    [get_route_json] of the client's loader, whether it returns or
    raises: one GET inside the limiter, no second request. *)
Theorem every_facade_method_is_one_get
    (client : APIClient.t) (id : segment) (v1 v2 v3 v4 details fetch : pyval)
    (object_type : string) :
  Forall (one_get (APIClient.loader client))
    [
     APIClient.areas client details fetch;
     APIClient.coach client id details fetch;
     APIClient.competitions client v1 details fetch;
     APIClient.competition client id details fetch;
     APIClient.competition_seasons client id v1 details fetch;
     APIClient.competition_matches client id details fetch;
     APIClient.competition_players client id details fetch;
     APIClient.competition_teams client id details fetch;
     APIClient.match_ client id v1 details fetch;
     APIClient.player client id v1 details fetch;
     APIClient.player_career client id details fetch;
     APIClient.player_transfer client id details fetch;
     APIClient.player_matches client id details fetch;
     APIClient.player_fixtures client id details fetch;
     APIClient.referee client id details fetch;
     APIClient.round client id details fetch;
     APIClient.search client v1 v2 details fetch;
     APIClient.season client id details fetch;
     APIClient.season_career client id v1 details fetch;
     APIClient.season_matches client id details fetch;
     APIClient.season_fixtures client id details fetch;
     APIClient.season_players client id details fetch;
     APIClient.season_teams client id details fetch;
     APIClient.season_standings client id details fetch;
     APIClient.team client id v1 details fetch;
     APIClient.team_matches client id details fetch;
     APIClient.team_fixtures client id details fetch;
     APIClient.team_squad client id v1 details fetch;
     APIClient.team_career client id v1 details fetch;
     APIClient.player_advancedstats client id v1 v2 v3 v4;
     APIClient.team_advancedstats client id v1 v2 v3 v4;
     APIClient.match_events client id details fetch;
     APIClient.player_injuries client id;
     APIClient.updated_objects client v1 object_type
    ].
Proof.
  repeat (apply Forall_cons;
          [first [ exact (one_get_get_route_json _ _ _)
                 | exact (one_get_updated_objects _ _ _) ] |]).
  apply Forall_nil.
Qed.

(** *** From credentials to requests *)

(** X18. Every request of a client built by [WyscoutAPI(username, password,
    version, requests_per_sec)] goes to a URL under
    [BASE_URL/version/], carries the Basic header of these credentials
    and runs inside the limiter built from [requests_per_sec]. *)
Theorem client_requests_carry_basic_auth
    (username password version : string) (requests_per_sec : Z)
    (client : APIClient.t) :
  WyscoutAPI.__init__ username password version requests_per_sec = Return client ->
  exists rl : limiter,
    RateLimiter requests_per_sec 1 = Return rl
    /\ forall (route : list segment) (params : dict pyval) (tr : list event),
         snd (get_route_json (APIClient.loader client) route params tr)
         = tr ++ [LimiterEnter rl;
                  HttpGet
                    (BASE_URL ++ "/" ++ version ++ "/"
                     ++ String.concat "/" (map py_str route))%string
                    [("Authorization",
                      ("Basic " ++ bytes_decode
                         (b64encode (str_encode (username ++ ":" ++ password))))%string)]
                    params;
                  LimiterExit rl].
Proof.
  unfold WyscoutAPI.__init__, __init__. intros Hinit.
  destruct (RateLimiter requests_per_sec 1) as [rl | e]; simpl in Hinit;
    [| discriminate].
  injection Hinit as <-. exists rl. split; [reflexivity |].
  intros route params tr. now rewrite get_route_json_steps.
Qed.

(** X19. The credentials are joined with [:] and nothing is escaped: moving
    a colon from the end of the username to the start of the password
    gives the same header. *)
Theorem basic_auth_does_not_escape_colon
    (u p q version : string) (requests_per_sec : Z)
    (self1 self2 : WyscoutAPILoader.t) :
  __init__ (u ++ ":" ++ p)%string q version requests_per_sec = Return self1 ->
  __init__ u (p ++ ":" ++ q)%string version requests_per_sec = Return self2 ->
  headers self1 = headers self2.
Proof.
  unfold __init__. intros H1 H2.
  destruct (RateLimiter requests_per_sec 1) as [rl | e]; simpl in H1, H2;
    [| discriminate].
  injection H1 as <-. injection H2 as <-. simpl.
  now rewrite !string_app_assoc.
Qed.

End LoaderEdges.

(* ------------------------------------------------------------------ *)
(** ** The further theorems at concrete inputs *)

Lemma parse_response_returns_nothing_but_the_body_witness :
  Response_json (json_response (PDict [("error", PInt 0); ("players", PList [])]))
  = Return (PDict [("error", PInt 0); ("players", PList [])])
  /\ truthy (PInt 0) = false.
Proof.
  pose proof (parse_response_returns_nothing_but_the_body
                (json_response (PDict [("error", PInt 0); ("players", PList [])]))
                (PDict [("error", PInt 0); ("players", PList [])]) eq_refl)
    as [Hbody Herror].
  split.
  - exact Hbody.
  - exact (Herror _ (PInt 0) eq_refl eq_refl).
Defined.

Lemma parse_response_raises_only_on_truthy_error_witness :
  is_WyscoutAPIError (AuthenticationError (PStr "bad creds")) = true
  \/ AuthenticationError (PStr "bad creds") = KeyError "code"
  \/ AuthenticationError (PStr "bad creds") = KeyError "message"
  \/ AuthenticationError (PStr "bad creds") = TypeError.
Proof.
  exact (proj2 (parse_response_raises_only_on_truthy_error
                  (json_response (error_body 401 "bad creds"))
                  (error_body 401 "bad creds")
                  (AuthenticationError (PStr "bad creds")) eq_refl eq_refl)).
Defined.

Lemma parse_response_scalar_error_raises_TypeError_witness :
  WyscoutAPILoader._parse_response (json_response (PDict [("error", PInt 500)]))
  = Raise TypeError.
Proof.
  refine (proj1 (parse_response_scalar_error_raises_TypeError
                   (json_response (PDict [("error", PInt 500)]))
                   [("error", PInt 500)] (PInt 500) eq_refl eq_refl eq_refl eq_refl _)).
  intros e. discriminate.
Defined.

Lemma parse_response_compares_code_by_value_witness :
  let body (code : pyval) :=
    PDict [("error", PDict [("code", code); ("message", PStr "m")])] in
  WyscoutAPILoader._parse_response
    (json_response (body (PFloat (S754_finite false 401 0))))
  = Raise (AuthenticationError (PStr "m"))
  /\ WyscoutAPILoader._parse_response (json_response (body (PStr "401")))
     = Raise (UnknownError (PStr "m")).
Proof.
  intros body. split.
  - exact (proj1 (parse_response_compares_code_by_value
                    (json_response (body (PFloat (S754_finite false 401 0))))
                    [("error", PDict [("code", PFloat (S754_finite false 401 0));
                                      ("message", PStr "m")])]
                    [("code", PFloat (S754_finite false 401 0)); ("message", PStr "m")]
                    (PFloat (S754_finite false 401 0)) (PStr "m")
                    eq_refl eq_refl eq_refl eq_refl)
             (S754_finite false 401 0) eq_refl eq_refl).
  - exact (proj1 (proj2 (parse_response_compares_code_by_value
                    (json_response (body (PStr "401")))
                    [("error", PDict [("code", PStr "401"); ("message", PStr "m")])]
                    [("code", PStr "401"); ("message", PStr "m")]
                    (PStr "401") (PStr "m")
                    eq_refl eq_refl eq_refl eq_refl))
             "401" eq_refl).
Defined.

Lemma get_route_json_propagates_failures_witness :
  let down := Raise (OtherError "ConnectionError") in
  let garbled := Return {| Response_json := Raise (OtherError "JSONDecodeError") |} in
  fst (@WyscoutAPILoader.get_route_json (fixed_server down) (demo_loader down)
         [SegStr "areas"] [] [])
  = Raise (OtherError "ConnectionError")
  /\ fst (@WyscoutAPILoader.get_route_json (fixed_server garbled) (demo_loader garbled)
            [SegStr "areas"] [] [])
     = Raise (OtherError "JSONDecodeError").
Proof.
  intros down garbled. split.
  - exact (proj1 (@get_route_json_propagates_failures (fixed_server down)
                    (demo_loader down) [SegStr "areas"] [] []
                    (OtherError "ConnectionError")) eq_refl).
  - exact (proj2 (@get_route_json_propagates_failures (fixed_server garbled)
                    (demo_loader garbled) [SegStr "areas"] [] []
                    (OtherError "JSONDecodeError"))
             {| Response_json := Raise (OtherError "JSONDecodeError") |}
             eq_refl eq_refl).
Defined.

Lemma updated_objects_bad_body_witness :
  let mapping := Return (json_response (PDict [("players", PList [])])) in
  let listing := Return (json_response (PList [PInt 1])) in
  fst (@APIClient.updated_objects (fixed_server mapping) (demo_client mapping)
         (PStr "2018-02-09 18:00:00") "teams" [])
  = Raise (KeyError "teams")
  /\ fst (@APIClient.updated_objects (fixed_server listing) (demo_client listing)
            (PStr "2018-02-09 18:00:00") "teams" [])
     = Raise TypeError.
Proof.
  intros mapping listing. split.
  - exact (proj1 (@updated_objects_bad_body (fixed_server mapping) (demo_client mapping)
                    (PStr "2018-02-09 18:00:00") "teams"
                    (PDict [("players", PList [])]) [] eq_refl)
             [("players", PList [])] eq_refl eq_refl).
  - refine (proj2 (@updated_objects_bad_body (fixed_server listing) (demo_client listing)
                     (PStr "2018-02-09 18:00:00") "teams" (PList [PInt 1]) [] eq_refl) _).
    intros d. discriminate.
Defined.

Lemma updated_objects_propagates_errors_witness :
  let refused := Return (json_response (error_body 401 "bad creds")) in
  fst (@APIClient.updated_objects (fixed_server refused) (demo_client refused)
         (PStr "2018-02-09 18:00:00") "players" [])
  = Raise (AuthenticationError (PStr "bad creds")).
Proof.
  intros refused.
  exact (proj1 (@updated_objects_propagates_errors (fixed_server refused)
                  (demo_client refused) (PStr "2018-02-09 18:00:00") "players" [])
           (AuthenticationError (PStr "bad creds")) eq_refl).
Defined.

Lemma season_career_replaces_falsy_filters_witness :
  exists sent : pyval,
    snd (@APIClient.season_career (fixed_server (Raise TypeError))
           (demo_client (Raise TypeError)) (SegInt 188) PNone PNone PNone [])
    = @WyscoutAPILoader.call_events (fixed_server (Raise TypeError))
        (demo_loader (Raise TypeError))
        [SegStr "seasons"; SegInt 188; SegStr "career"]
        [("filters", sent); ("details", PNone); ("fetch", PNone)]
    /\ sent = PDict [].
Proof.
  destruct (@season_career_replaces_falsy_filters (fixed_server (Raise TypeError))
              (demo_client (Raise TypeError)) (SegInt 188) PNone PNone PNone [])
    as [sent [Htrace [_ [_ Hfalsy]]]].
  exists sent. split.
  - exact Htrace.
  - exact (Hfalsy eq_refl).
Defined.

Lemma client_requests_carry_basic_auth_witness :
  exists rl : Z * Z,
    rl = (12, 1)
    /\ snd (@WyscoutAPILoader.get_route_json (fixed_server (Raise TypeError))
              (demo_loader (Raise TypeError)) [SegStr "teams"; SegInt 123] [] [])
       = [@LimiterEnter (fixed_server (Raise TypeError)) rl;
          @HttpGet (fixed_server (Raise TypeError))
            "https://apirest.wyscout.com/v3/teams/123"
            [("Authorization", "Basic dXNlcjpwYXNz")] [];
          @LimiterExit (fixed_server (Raise TypeError)) rl].
Proof.
  destruct (@client_requests_carry_basic_auth (fixed_server (Raise TypeError))
              "user" "pass" "v3" 12 (demo_client (Raise TypeError)) eq_refl)
    as [rl [Hrl Hsent]].
  exists rl. split.
  - injection Hrl as <-. reflexivity.
  - exact (Hsent [SegStr "teams"; SegInt 123] [] []).
Defined.

Lemma basic_auth_does_not_escape_colon_witness :
  exists self1 self2 : @WyscoutAPILoader.t (fixed_server (Raise TypeError)),
    @WyscoutAPILoader.__init__ (fixed_server (Raise TypeError)) "a:b" "c" "v3" 12
    = Return self1
    /\ @WyscoutAPILoader.__init__ (fixed_server (Raise TypeError)) "a" "b:c" "v3" 12
       = Return self2
    /\ WyscoutAPILoader.headers self1 = WyscoutAPILoader.headers self2.
Proof.
  eexists. eexists. split; [reflexivity |]. split; [reflexivity |].
  exact (@basic_auth_does_not_escape_colon (fixed_server (Raise TypeError))
           "a" "b" "c" "v3" 12 _ _ eq_refl eq_refl).
Defined.
